(** * Bedrock guardrails safety adapter

    A shallow embedding of
    [llama_stack/providers/adapters/safety/bedrock/bedrock.py]:
    the class [BedrockSafetyAdapter] with its methods [initialize],
    [shutdown] and [run_shield].

    Python values that reach the adapter untyped (the boto3 response, the
    values of [params]) are embedded as a small universe [PyVal]; the
    operations the method applies to them ([x[k]], [for _ in x],
    [dict(x)], [==]) are embedded with the exceptions they raise.  Effects
    (log records, the remote call, attribute assignment on [self]) are
    threaded through one monad [Py]. *)

From stdpp Require Import base option list strings gmap.

Set Default Proof Using "Type".
Set Warnings "-register-all".

(** ** Python values *)

(** [None], [bool], [int], [str], [list] and [dict]: the values a JSON
    document decodes to (floating-point numbers left out).  A [dict] keeps
    its entries in insertion order. *)
Inductive PyVal : Type :=
| PNone
| PBool (b : bool)
| PInt (z : Z)
| PStr (s : string)
| PList (items : list PyVal)
| PDict (entries : list (PyVal * PyVal)).

Definition type_name (v : PyVal) : string :=
  match v with
  | PNone => "NoneType"
  | PBool _ => "bool"
  | PInt _ => "int"
  | PStr _ => "str"
  | PList _ => "list"
  | PDict _ => "dict"
  end.

(** ** Exceptions *)

(** The classes that occur, with the two built-in classes that derive
    from [BaseException] but not from [Exception]. *)
Inductive ExcClass : Type :=
| RuntimeError
| TypeError
| KeyError
| ValueError
| AttributeError
| OtherException (name : string)
| KeyboardInterrupt
| SystemExit.

(** [issubclass(c, Exception)]. *)
Definition is_Exception (c : ExcClass) : bool :=
  match c with
  | KeyboardInterrupt | SystemExit => false
  | _ => true
  end.

(** An exception instance: class, [str(e)], and [__cause__] as set by
    [raise ... from e]. *)
Inductive PyExc : Type :=
| Exc (cls : ExcClass) (msg : string) (cause : option PyExc).

Definition exc_class (e : PyExc) : ExcClass := let 'Exc c _ _ := e in c.
Definition exc_str (e : PyExc) : string := let 'Exc _ m _ := e in m.
Definition exc_cause (e : PyExc) : option PyExc := let 'Exc _ _ c := e in c.

Inductive Result (A : Type) : Type :=
| Ok (a : A)
| Raise (e : PyExc).
Arguments Ok {A} a.
Arguments Raise {A} e.

Global Instance Result_ret : MRet Result := fun A a => Ok a.
Global Instance Result_bind : MBind Result := fun A B f r =>
  match r with
  | Ok a => f a
  | Raise e => Raise e
  end.

(** ** Operations on Python values *)

Definition quote (s : string) : string := "'" +:+ s +:+ "'".

(** Equality of dictionary keys: [True == 1] and [False == 0]. *)
Definition py_key_eqb (a b : PyVal) : bool :=
  match a, b with
  | PNone, PNone => true
  | PStr s, PStr t => String.eqb s t
  | PInt x, PInt y => Z.eqb x y
  | PBool x, PBool y => Bool.eqb x y
  | PBool x, PInt y => Z.eqb (Z.b2z x) y
  | PInt x, PBool y => Z.eqb x (Z.b2z y)
  | _, _ => false
  end.

Definition hashable (v : PyVal) : bool :=
  match v with
  | PList _ | PDict _ => false
  | _ => true
  end.

Fixpoint dict_get (d : list (PyVal * PyVal)) (k : PyVal) : option PyVal :=
  match d with
  | [] => None
  | (k', v) :: rest => if py_key_eqb k' k then Some v else dict_get rest k
  end.

(** [d[k] = v]: an existing key keeps its place, a new one goes last. *)
Fixpoint dict_set (k v : PyVal) (d : list (PyVal * PyVal)) : list (PyVal * PyVal) :=
  match d with
  | [] => [(k, v)]
  | (k', v') :: rest =>
      if py_key_eqb k' k then (k', v) :: rest else (k', v') :: dict_set k v rest
  end.

(** [v[k]] for a string key [k]. *)
Definition py_getitem (v : PyVal) (k : string) : Result PyVal :=
  match v with
  | PDict d =>
      match dict_get d (PStr k) with
      | Some x => Ok x
      | None => Raise (Exc KeyError (quote k) None)
      end
  | PStr _ => Raise (Exc TypeError "string indices must be integers, not 'str'" None)
  | PList _ => Raise (Exc TypeError "list indices must be integers or slices, not str" None)
  | _ => Raise (Exc TypeError (quote (type_name v) +:+ " object is not subscriptable") None)
  end.

Fixpoint chars (s : string) : list PyVal :=
  match s with
  | EmptyString => []
  | String c rest => PStr (String c EmptyString) :: chars rest
  end.

(** The items [for x in v] visits: the elements of a list, the keys of a
    dict, the characters of a str. *)
Definition py_iter (v : PyVal) : Result (list PyVal) :=
  match v with
  | PList items => Ok items
  | PDict d => Ok (d.*1)
  | PStr s => Ok (chars s)
  | _ => Raise (Exc TypeError (quote (type_name v) +:+ " object is not iterable") None)
  end.

(** The loop of [dict(iterable)]: every item must itself yield exactly a
    key and a value. *)
Fixpoint dict_from_pairs (items : list PyVal) (acc : list (PyVal * PyVal))
  : Result (list (PyVal * PyVal)) :=
  match items with
  | [] => Ok acc
  | item :: rest =>
      match py_iter item with
      | Raise _ =>
          Raise (Exc TypeError
                   "cannot convert dictionary update sequence element to a sequence" None)
      | Ok [k; v] =>
          if hashable k then dict_from_pairs rest (dict_set k v acc)
          else Raise (Exc TypeError ("unhashable type: " +:+ quote (type_name k)) None)
      | Ok _ =>
          Raise (Exc ValueError
                   "dictionary update sequence element has wrong length; 2 is required" None)
      end
  end.

(** [dict(v)], as the entries of the new dict: a copy of a mapping, or a
    dict built from key/value pairs. *)
Definition py_dict (v : PyVal) : Result (list (PyVal * PyVal)) :=
  match v with
  | PDict d => Ok d
  | PList _ | PStr _ => items ← py_iter v; dict_from_pairs items []
  | _ => Raise (Exc TypeError (quote (type_name v) +:+ " object is not iterable") None)
  end.

(** [v == s] for a str literal [s]. *)
Definition py_eq_str (v : PyVal) (s : string) : bool :=
  match v with
  | PStr t => String.eqb t s
  | _ => false
  end.

(** A [for] loop whose body updates one local and may raise. *)
Fixpoint for_each {S : Type} (items : list PyVal) (body : S → PyVal → Result S)
    (s : S) : Result S :=
  match items with
  | [] => Ok s
  | x :: rest => s' ← body s x; for_each rest body s'
  end.

(** ** Data model of the adapter *)

(** Modelled from the spec: the declaration of [Message] (imported from
    [llama_models.llama3.api.datatypes]) is not part of the sources; the
    data model gives a role and a text content. *)
Inductive Role : Type := system | user | assistant.

Record Message : Type := { role : Role; content : string }.

(** Modelled from the spec: [ViolationLevel] and [SafetyViolation] are
    declared in [llama_stack.apis.safety]; a violation carries a message,
    a level and a metadata mapping.  The fields hold what [run_shield]
    passes to the constructor. *)
Inductive ViolationLevel : Type := INFO | WARN | ERROR.

Record SafetyViolation : Type := {
  user_message : PyVal;
  violation_level : ViolationLevel;
  metadata : list (PyVal * PyVal)
}.

Definition is_str (v : PyVal) : bool :=
  match v with
  | PStr _ => true
  | _ => false
  end.

(** The message field is a string; it is optional, so [None] passes. *)
Definition valid_user_message (v : PyVal) : bool :=
  match v with
  | PStr _ | PNone => true
  | _ => false
  end.

(** The metadata field is a mapping from strings. *)
Definition str_keys (d : list (PyVal * PyVal)) : bool :=
  forallb (λ entry, is_str entry.1) d.

(** Modelled from the spec: the call [SafetyViolation(user_message=...,
    violation_level=..., metadata=...)].  The class validates what it is
    given against its fields (message: string, metadata: mapping) and
    raises a [ValidationError], an [Exception], when a value does not
    fit; it does not convert. *)
Definition new_SafetyViolation (message : PyVal) (level : ViolationLevel)
    (meta : list (PyVal * PyVal)) : Result SafetyViolation :=
  if valid_user_message message && str_keys meta then
    Ok {| user_message := message; violation_level := level; metadata := meta |}
  else
    Raise (Exc (OtherException "ValidationError")
             "validation error for SafetyViolation" None).

(** The keyword arguments of [boto_client.apply_guardrail]. *)
Record ApplyGuardrailRequest : Type := {
  guardrailIdentifier : PyVal;
  guardrailVersion : PyVal;
  source : string;
  content_blocks : list PyVal
}.

(** The [bedrock-runtime] client, seen through its one operation: it
    returns the decoded response or raises. *)
Definition Client : Type := ApplyGuardrailRequest → Result PyVal.

(** Modelled from the spec: [BedrockSafetyConfig] is declared in
    [.config]; the adapter reads its profile identifier only. *)
Record BedrockSafetyConfig : Type := { aws_profile : option string }.

(** The instance attributes; [boto_client = None] stands for the attribute
    not being set yet. *)
Record BedrockSafetyAdapter : Type := {
  config : BedrockSafetyConfig;
  boto_client_profile : option string;
  boto_client : option Client
}.

(** [__init__]. *)
Definition new_adapter (cfg : BedrockSafetyConfig) : BedrockSafetyAdapter :=
  {| config := cfg; boto_client_profile := None; boto_client := None |}.

(** ** Observable effects *)

(** The levels of [logger.debug] and [logger.error]. *)
Inductive LogLevel : Type := DEBUG | LOG_ERROR.

Inductive LogRecord : Type :=
| LogRunShield (params : option (gmap string PyVal)) (messages : list Message)
| LogFinalMessages (content_messages : list PyVal)
| LogResponse (response : PyVal)
| LogApplyGuardrailsError (e : PyExc).

Inductive Event : Type :=
| EvLog (level : LogLevel) (record : LogRecord)
| EvPrint (text : string)
| EvSession (profile_name : option string)
| EvApplyGuardrail (req : ApplyGuardrailRequest).

Definition remote_calls (t : list Event) : list ApplyGuardrailRequest :=
  omap (λ ev, match ev with EvApplyGuardrail r => Some r | _ => None end) t.

(** ** The effect monad *)

(** A method body runs on [self] and yields a value or an exception, the
    attributes of [self] afterwards, and the events it caused, in order. *)
Record Outcome (A : Type) : Type := MkOutcome {
  result : Result A;
  self_after : BedrockSafetyAdapter;
  trace : list Event
}.
Arguments MkOutcome {A} _ _ _.
Arguments result {A} _.
Arguments self_after {A} _.
Arguments trace {A} _.

Definition Py (A : Type) : Type := BedrockSafetyAdapter → Outcome A.

Global Instance Py_ret : MRet Py := λ A a self, MkOutcome (Ok a) self [].
Global Instance Py_bind : MBind Py := λ A B f m self,
  match m self with
  | MkOutcome (Ok a) self1 t1 =>
      match f a self1 with
      | MkOutcome r self2 t2 => MkOutcome r self2 (t1 ++ t2)
      end
  | MkOutcome (Raise e) self1 t1 => MkOutcome (Raise e) self1 t1
  end.

Definition raise {A} (e : PyExc) : Py A := λ self, MkOutcome (Raise e) self [].
Definition lift {A} (r : Result A) : Py A := λ self, MkOutcome r self [].
Definition emit (ev : Event) : Py unit := λ self, MkOutcome (Ok ()) self [ev].
Definition get_self : Py BedrockSafetyAdapter := λ self, MkOutcome (Ok self) self [].
Definition set_self (self' : BedrockSafetyAdapter) : Py unit :=
  λ _, MkOutcome (Ok ()) self' [].

(** [try: body / except Exception as e: handler e]. *)
Definition try_except_Exception {A} (body : Py A) (handler : PyExc → Py A) : Py A :=
  λ self,
  match body self with
  | MkOutcome (Ok a) self1 t1 => MkOutcome (Ok a) self1 t1
  | MkOutcome (Raise e) self1 t1 =>
      if is_Exception (exc_class e) then
        match handler e self1 with
        | MkOutcome r self2 t2 => MkOutcome r self2 (t1 ++ t2)
        end
      else MkOutcome (Raise e) self1 t1
  end.

(** ** Helpers of the method bodies *)

(** Truth value of [self.config.aws_profile]: [None] and [''] are false. *)
Definition truthy (profile : option string) : bool :=
  match profile with
  | None => false
  | Some p => negb (String.eqb p "")
  end.

(** [key in params], for [params] a [Dict[str, Any]] or [None]. *)
Definition py_in (key : string) (params : option (gmap string PyVal)) : Result bool :=
  match params with
  | None => Raise (Exc TypeError "argument of type 'NoneType' is not iterable" None)
  | Some d => Ok (bool_decide (is_Some (d !! key)))
  end.

(** [params.get(key)]. *)
Definition py_get (params : option (gmap string PyVal)) (key : string) : Result PyVal :=
  match params with
  | None => Raise (Exc AttributeError "'NoneType' object has no attribute 'get'" None)
  | Some d => Ok (default PNone (d !! key))
  end.

(** [{"text": {"text": message.content}}]. *)
Definition content_block (message : Message) : PyVal :=
  PDict [(PStr "text", PDict [(PStr "text", PStr (content message))])].

(** [self.boto_client], an [AttributeError] before [initialize] has set it. *)
Definition get_boto_client : Py Client :=
  self ← get_self;
  match boto_client self with
  | Some client => mret client
  | None =>
      raise (Exc AttributeError
               "'BedrockSafetyAdapter' object has no attribute 'boto_client'" None)
  end.

(** The call [client.apply_guardrail(...)]: recorded, then answered. *)
Definition apply_guardrail (client : Client) (req : ApplyGuardrailRequest) : Py PyVal :=
  emit (EvApplyGuardrail req);; lift (client req).

Definition GUARDRAIL_INTERVENED : string := "GUARDRAIL_INTERVENED".

(** ** The class [BedrockSafetyAdapter] *)

Section BedrockSafetyAdapter.

(** The parts of the environment whose code is elsewhere:
    [boto3.Session(profile_name=p).client("bedrock-runtime")] and the
    text [f"{self.config}"] of a configuration. *)
Variable boto3_Session_client : option string → Result Client.
Variable str_config : BedrockSafetyConfig → string.

Definition initialize : Py unit :=
  self ← get_self;
  if negb (truthy (aws_profile (config self))) then
    raise (Exc RuntimeError
             ("Missing boto_client aws_profile in model info::" +:+ str_config (config self))
             None)
  else
    try_except_Exception
      (emit (EvPrint ("initializing with profile --- > " +:+ str_config (config self) +:+ "::"));;
       set_self {| config := config self;
                   boto_client_profile := aws_profile (config self);
                   boto_client := boto_client self |};;
       self ← get_self;
       emit (EvSession (boto_client_profile self));;
       client ← lift (boto3_Session_client (boto_client_profile self));
       set_self {| config := config self;
                   boto_client_profile := boto_client_profile self;
                   boto_client := Some client |})
      (λ e,
         raise (Exc RuntimeError
                  ("Error initializing BedrockSafetyAdapter: " +:+ exc_str e) (Some e))).

Definition shutdown : Py unit := mret ().

(** The statements of the [try] block of [run_shield]; [Some v] when the
    block executes [return v], [None] when it runs to its end.  The
    f-strings of the log records are total on these values, and so is
    [json.dumps] on blocks of text; [shield_type] is not used. *)
Definition run_shield_try (messages : list Message)
    (params : option (gmap string PyVal)) : Py (option SafetyViolation) :=
  emit (EvLog DEBUG (LogRunShield params messages));;
  has_id ← lift (py_in "guardrailIdentifier" params);
  if negb has_id then
    raise (Exc RuntimeError
             "Error running request for BedrockGaurdrails:Missing GuardrailID in request"
             None)
  else
  has_version ← lift (py_in "guardrailVersion" params);
  if negb has_version then
    raise (Exc RuntimeError
             "Error running request for BedrockGaurdrails:Missing guardrailVersion in request"
             None)
  else
  let content_messages :=
    fold_left (λ acc message, acc ++ [content_block message]) messages [] in
  emit (EvLog DEBUG (LogFinalMessages content_messages));;
  client ← get_boto_client;
  gid ← lift (py_get params "guardrailIdentifier");
  gversion ← lift (py_get params "guardrailVersion");
  response ← apply_guardrail client
    {| guardrailIdentifier := gid;
       guardrailVersion := gversion;
       source := "OUTPUT";
       content_blocks := content_messages |};
  emit (EvLog DEBUG (LogResponse response));;
  action ← lift (py_getitem response "action");
  if py_eq_str action GUARDRAIL_INTERVENED then
    outputs ← lift (py_getitem response "outputs" ≫= py_iter);
    user_message ← lift (for_each outputs (λ _ output, py_getitem output "text") (PStr ""));
    assessments ← lift (py_getitem response "assessments" ≫= py_iter);
    metadata ← lift (for_each assessments (λ _ assessment, py_dict assessment) []);
    violation ← lift (new_SafetyViolation user_message ERROR metadata);
    mret (Some violation)
  else mret None.

(** [run_shield]: the [try] block, the handler of [except Exception],
    and the [return None] after the statement. *)
Definition run_shield (shield_type : string) (messages : list Message)
    (params : option (gmap string PyVal)) : Py (option SafetyViolation) :=
  returned ← try_except_Exception
    (run_shield_try messages params)
    (λ e, emit (EvLog LOG_ERROR (LogApplyGuardrailsError e));; mret None);
  match returned with
  | Some violation => mret (Some violation)
  | None => mret None
  end.

End BedrockSafetyAdapter.

(** ** Notions used in the statements *)

(** The remote client fails with errors only, that is with instances of
    [Exception]. *)
Definition client_raises_errors_only (self : BedrockSafetyAdapter) : Prop :=
  ∀ client req e,
    boto_client self = Some client → client req = Raise e →
    is_Exception (exc_class e) = true.

(** The request [run_shield] sends for [messages], an identifier and a
    version. *)
Definition request_for (gid gversion : PyVal) (messages : list Message)
  : ApplyGuardrailRequest :=
  {| guardrailIdentifier := gid;
     guardrailVersion := gversion;
     source := "OUTPUT";
     content_blocks := map content_block messages |}.

(** [r] fails, if at all, with an instance of [Exception]. *)
Definition raises_errors_only {A} (r : Result A) : Prop :=
  ∀ e, r = Raise e → is_Exception (exc_class e) = true.

Definition is_Ok {A} (r : Result A) : bool :=
  match r with
  | Ok _ => true
  | Raise _ => false
  end.

(** What the statements after the remote call compute from the response,
    as one expression; [run_shield_try_call] derives it from the method. *)
Definition interpretation (response : PyVal) : Result (option SafetyViolation) :=
  action ← py_getitem response "action";
  if py_eq_str action GUARDRAIL_INTERVENED then
    outputs ← py_getitem response "outputs" ≫= py_iter;
    user_message ← for_each outputs (λ _ output, py_getitem output "text") (PStr "");
    assessments ← py_getitem response "assessments" ≫= py_iter;
    metadata ← for_each assessments (λ _ assessment, py_dict assessment) [];
    violation ← new_SafetyViolation user_message ERROR metadata;
    mret (Some violation)
  else mret None.

(** The events of a call that reaches the remote service. *)
Definition events_up_to_call (params : option (gmap string PyVal))
    (messages : list Message) (req : ApplyGuardrailRequest) : list Event :=
  [EvLog DEBUG (LogRunShield params messages);
   EvLog DEBUG (LogFinalMessages (content_blocks req));
   EvApplyGuardrail req].

(** ** Sample data *)

Definition sample_messages : list Message :=
  [{| role := user; content := "hello" |}; {| role := assistant; content := "world" |}].

Definition sample_params : gmap string PyVal :=
  <["guardrailIdentifier" := PStr "gr-1"]> (<["guardrailVersion" := PStr "DRAFT"]> ∅).

(** Both keys present, the identifier empty. *)
Definition empty_id_params : gmap string PyVal :=
  <["guardrailIdentifier" := PStr ""]> (<["guardrailVersion" := PStr "DRAFT"]> ∅).

Definition sample_config : BedrockSafetyConfig := {| aws_profile := Some "default" |}.

Definition adapter_with (client : Client) : BedrockSafetyAdapter :=
  {| config := sample_config;
     boto_client_profile := Some "default";
     boto_client := Some client |}.

(** [{"action": "GUARDRAIL_INTERVENED", "outputs": [{"text": "a"},
    {"text": "b"}], "assessments": [{"k": 1}, {"k": 2}]}]. *)
Definition intervened_response : PyVal :=
  PDict [(PStr "action", PStr "GUARDRAIL_INTERVENED");
         (PStr "outputs", PList [PDict [(PStr "text", PStr "a")];
                                 PDict [(PStr "text", PStr "b")]]);
         (PStr "assessments", PList [PDict [(PStr "k", PInt 1)];
                                     PDict [(PStr "k", PInt 2)]])].

Definition empty_intervened_response : PyVal :=
  PDict [(PStr "action", PStr "GUARDRAIL_INTERVENED");
         (PStr "outputs", PList []);
         (PStr "assessments", PList [])].

Definition passed_response : PyVal :=
  PDict [(PStr "action", PStr "NONE");
         (PStr "outputs", PList []);
         (PStr "assessments", PList [])].

Definition throttled : PyExc := Exc (OtherException "ClientError") "ThrottlingException" None.

Definition failing_client : Client := λ _, Raise throttled.

Definition no_credentials : PyExc :=
  Exc (OtherException "ProfileNotFound") "The config profile (default) could not be found" None.

(** * Properties *)

(** ** The operations on values raise errors only *)

Lemma Result_bind_Raise {A B} (r : Result A) (f : A → Result B) e :
  r ≫= f = Raise e → r = Raise e ∨ ∃ a, r = Ok a ∧ f a = Raise e.
Proof.
  unfold mbind, Result_bind.
  destruct r as [a|e']; intros H; cbn in H; [right; eauto | left; congruence].
Qed.

Lemma raises_errors_only_bind {A B} (r : Result A) (f : A → Result B) :
  raises_errors_only r → (∀ a, raises_errors_only (f a)) →
  raises_errors_only (r ≫= f).
Proof.
  intros Hr Hf e [He | (a & _ & He)]%Result_bind_Raise; [by apply Hr | by apply (Hf a)].
Qed.

Lemma py_getitem_raises v k : raises_errors_only (py_getitem v k).
Proof.
  intros e. destruct v; cbn; try (intros [= <-]; done).
  destruct (dict_get _ _); intros [= <-]; done.
Qed.

Lemma py_iter_raises v : raises_errors_only (py_iter v).
Proof. intros e. destruct v; cbn; intros [= <-]; done. Qed.

Lemma dict_from_pairs_raises items acc : raises_errors_only (dict_from_pairs items acc).
Proof.
  revert acc. induction items as [|item rest IH]; intros acc e; cbn; [done|].
  destruct (py_iter item) as [[|k [|v [|? ?]]]|]; try (intros [= <-]; done).
  destruct (hashable k); [apply IH | intros [= <-]; done].
Qed.

Lemma py_dict_raises v : raises_errors_only (py_dict v).
Proof.
  destruct v; try (intros e [= <-]; done).
  - apply raises_errors_only_bind; [apply py_iter_raises | intros; apply dict_from_pairs_raises].
  - apply raises_errors_only_bind; [apply py_iter_raises | intros; apply dict_from_pairs_raises].
Qed.

Lemma for_each_raises {S} items (body : S → PyVal → Result S) s :
  (∀ s x, raises_errors_only (body s x)) → raises_errors_only (for_each items body s).
Proof.
  intros Hbody. revert s. induction items as [|x rest IH]; intros s; cbn; [done|].
  apply raises_errors_only_bind; auto.
Qed.

Lemma new_SafetyViolation_raises message level meta :
  raises_errors_only (new_SafetyViolation message level meta).
Proof.
  intros e. unfold new_SafetyViolation.
  destruct (valid_user_message message && str_keys meta); intros [= <-]; done.
Qed.

(** What the constructor returns holds what it was given. *)
Lemma new_SafetyViolation_Ok message level meta violation :
  new_SafetyViolation message level meta = Ok violation →
  violation = {| user_message := message; violation_level := level; metadata := meta |}.
Proof.
  unfold new_SafetyViolation.
  destruct (valid_user_message message && str_keys meta); intros [= <-]; done.
Qed.

Lemma new_SafetyViolation_valid message level meta :
  valid_user_message message = true → str_keys meta = true →
  new_SafetyViolation message level meta =
  Ok {| user_message := message; violation_level := level; metadata := meta |}.
Proof. intros Hmessage Hmeta. unfold new_SafetyViolation. by rewrite Hmessage, Hmeta. Qed.

Create HintDb py_errors.
#[local] Hint Resolve py_getitem_raises py_iter_raises py_dict_raises
  dict_from_pairs_raises raises_errors_only_bind new_SafetyViolation_raises : py_errors.
#[local] Hint Extern 2 (raises_errors_only (for_each _ _ _)) =>
  apply for_each_raises; intros : py_errors.

(** ** Stepping through the method bodies *)

Ltac py_unfold :=
  unfold run_shield, run_shield_try, try_except_Exception, get_boto_client, apply_guardrail,
    get_self, set_self, emit, lift, raise, mbind, Py_bind, mret, Py_ret, py_in, py_get;
  cbn -[lookup].

(** Closes [is_Exception (exc_class e) = true] from the equation that
    says which operation raised [e]. *)
Ltac raised_by_operation :=
  match goal with
  | H : ?r = Raise ?e |- is_Exception (exc_class ?e) = true =>
      revert H; generalize e; change (raises_errors_only r); auto with py_errors
  end.

Lemma run_shield_try_raises self messages params :
  client_raises_errors_only self →
  raises_errors_only (result (run_shield_try messages params self)).
Proof.
  intros Hclient e. py_unfold.
  repeat case_match; simplify_eq/=; intros [= <-]; try done.
  all: try (eapply Hclient; eassumption).
  all: try raised_by_operation.
Qed.

(** [run_shield] in terms of its [try] block. *)
Lemma run_shield_unfold shield_type messages params self :
  run_shield shield_type messages params self =
  match run_shield_try messages params self with
  | MkOutcome (Ok returned) self1 t => MkOutcome (Ok returned) self1 t
  | MkOutcome (Raise e) self1 t =>
      if is_Exception (exc_class e) then
        MkOutcome (Ok None) self1 (t ++ [EvLog LOG_ERROR (LogApplyGuardrailsError e)])
      else MkOutcome (Raise e) self1 t
  end.
Proof.
  unfold run_shield, try_except_Exception, mbind, Py_bind, mret, Py_ret, emit.
  destruct (run_shield_try messages params self) as [[[v|]|e] self1 t]; cbn;
    rewrite ?app_nil_r; try done.
  destruct (is_Exception (exc_class e)); cbn; rewrite ?app_nil_r; done.
Qed.

(** The loop that builds [content_messages] is a [map]. *)
Lemma content_messages_map messages acc :
  fold_left (λ acc message, acc ++ [content_block message]) messages acc =
  acc ++ map content_block messages.
Proof.
  revert acc. induction messages as [|m rest IH]; intros acc; cbn.
  - by rewrite app_nil_r.
  - by rewrite IH, <- app_assoc.
Qed.

(** The [try] block when a required key is missing: a [RuntimeError]
    after the first log record, and nothing else. *)
Lemma run_shield_try_missing_key self messages (d : gmap string PyVal) :
  d !! "guardrailIdentifier" = None ∨ d !! "guardrailVersion" = None →
  ∃ msg,
    run_shield_try messages (Some d) self =
    MkOutcome (Raise (Exc RuntimeError msg None)) self
      [EvLog DEBUG (LogRunShield (Some d) messages)].
Proof.
  intros Hmissing. py_unfold.
  destruct (d !! "guardrailIdentifier") as [gid|] eqn:Hid; cbn -[lookup].
  - destruct Hmissing as [|Hversion]; [done|]. rewrite Hversion. cbn. eauto.
  - eauto.
Qed.

(** The [try] block on an initialised adapter with both keys present: one
    remote call, then the interpretation of its answer. *)
Lemma run_shield_try_call self messages (d : gmap string PyVal) client gid gversion :
  boto_client self = Some client →
  d !! "guardrailIdentifier" = Some gid →
  d !! "guardrailVersion" = Some gversion →
  let req := request_for gid gversion messages in
  run_shield_try messages (Some d) self =
  match client req with
  | Ok response =>
      MkOutcome (interpretation response) self
        (events_up_to_call (Some d) messages req ++ [EvLog DEBUG (LogResponse response)])
  | Raise e => MkOutcome (Raise e) self (events_up_to_call (Some d) messages req)
  end.
Proof.
  intros Hclient Hid Hversion req. subst req. unfold request_for, interpretation.
  py_unfold. rewrite Hid, Hversion. cbn -[lookup]. rewrite Hclient. cbn -[lookup].
  rewrite content_messages_map. cbn.
  unfold mbind, Result_bind.
  destruct (client _) as [response|e]; cbn; [|done].
  repeat case_match; simplify_eq/=; done.
Qed.

Lemma for_each_snoc {S} items x (body : S → PyVal → Result S) s :
  for_each (items ++ [x]) body s = for_each items body s ≫= λ s', body s' x.
Proof.
  revert s. induction items as [|y rest IH]; intros s; cbn.
  - unfold mbind, Result_bind. by destruct (body s x).
  - unfold mbind, Result_bind in *. destruct (body s y); [apply IH | done].
Qed.

(** A loop whose body succeeds on every item runs to its end. *)
Lemma for_each_is_Ok {S} items (body : PyVal → Result S) s :
  forallb (λ y, is_Ok (body y)) items = true →
  ∃ s', for_each items (λ _ y, body y) s = Ok s'.
Proof.
  revert s. induction items as [|y rest IH]; intros s; cbn; [eauto|].
  intros [Hy Hrest]%andb_prop. destruct (body y); [|done]. cbn. auto.
Qed.

(** Last wins: after a loop over [items ++ [x]] the local holds what the
    body computed from [x]. *)
Lemma for_each_last_wins {S} items x (body : PyVal → Result S) s v :
  forallb (λ y, is_Ok (body y)) items = true →
  body x = Ok v →
  for_each (items ++ [x]) (λ _ y, body y) s = Ok v.
Proof.
  intros Hitems Hx. rewrite for_each_snoc.
  destruct (for_each_is_Ok items body s Hitems) as [s' ->]. done.
Qed.

Lemma py_eq_str_true v s : py_eq_str v s = true ↔ v = PStr s.
Proof.
  destruct v; cbn; try (split; [done | intros [=]]).
  rewrite String.eqb_eq. split; [by intros -> | by intros [= ->]].
Qed.

(** The network failure and the malformed response as the [try] block
    sees them. *)
Lemma run_shield_try_network_error self messages (d : gmap string PyVal) client gid gversion e :
  boto_client self = Some client →
  d !! "guardrailIdentifier" = Some gid →
  d !! "guardrailVersion" = Some gversion →
  client (request_for gid gversion messages) = Raise e →
  result (run_shield_try messages (Some d) self) = Raise e.
Proof.
  intros Hclient Hid Hversion Hfail.
  rewrite (run_shield_try_call _ _ _ _ _ _ Hclient Hid Hversion). cbn zeta.
  by rewrite Hfail.
Qed.

Lemma run_shield_try_malformed_response self messages (d : gmap string PyVal)
    client gid gversion response e :
  boto_client self = Some client →
  d !! "guardrailIdentifier" = Some gid →
  d !! "guardrailVersion" = Some gversion →
  client (request_for gid gversion messages) = Ok response →
  py_getitem response "action" = Raise e →
  result (run_shield_try messages (Some d) self) = Raise e.
Proof.
  intros Hclient Hid Hversion Hresponse Haction.
  rewrite (run_shield_try_call _ _ _ _ _ _ Hclient Hid Hversion). cbn zeta.
  rewrite Hresponse. cbn. unfold interpretation. by rewrite Haction.
Qed.

(** ** Failure semantics of [run_shield] *)

(** Where an exception of the [try] block comes from: it is an error, or
    it is what the remote client raised. *)
Lemma run_shield_try_raise_origin self messages params e :
  result (run_shield_try messages params self) = Raise e →
  is_Exception (exc_class e) = true ∨
  ∃ client req, boto_client self = Some client ∧ client req = Raise e.
Proof.
  py_unfold.
  repeat case_match; simplify_eq/=; intros [= <-].
  all: first [ left; done
             | left; solve [raised_by_operation]
             | right; do 2 eexists; split; [reflexivity | eassumption] ].
Qed.

(** With a client that fails with errors only, [run_shield] always
    returns. *)
Lemma run_shield_always_returns self shield_type messages params :
  client_raises_errors_only self →
  ∃ returned, result (run_shield shield_type messages params self) = Ok returned.
Proof.
  intros Hclient.
  pose proof (run_shield_try_raises self messages params Hclient) as Herrors.
  rewrite run_shield_unfold.
  destruct (run_shield_try messages params self) as [[returned|e] self1 t]; cbn in *.
  - eauto.
  - rewrite (Herrors e eq_refl). cbn. eauto.
Qed.

(** C1 as stated fails: the handler is [except Exception], and a
    [KeyboardInterrupt] raised while the remote call runs is no instance
    of [Exception]; [run_shield] does not return, the exception reaches
    the caller. *)
Lemma run_shield_interrupt_reaches_caller :
  let interrupt := Exc KeyboardInterrupt EmptyString None in
  let o := run_shield "bedrock" sample_messages (Some sample_params)
             (adapter_with (λ _, Raise interrupt)) in
  result o = Raise interrupt ∧ ¬ (∃ returned, result o = Ok returned).
Proof.
  cbn zeta.
  assert (result (run_shield "bedrock" sample_messages (Some sample_params)
                    (adapter_with (λ _, Raise (Exc KeyboardInterrupt EmptyString None)))) =
            Raise (Exc KeyboardInterrupt EmptyString None)) as Hrun.
  { vm_compute. reflexivity. }
  split; [exact Hrun|]. intros [returned Hreturned]. congruence.
Qed.

(** C1, amended.  Whatever error, that is instance of [Exception], the
    [try] block of [run_shield] raises, be it from the validation of
    [params], from the remote call or from reading the response,
    [run_shield] catches it, logs it and returns [None].  What reaches
    the caller is no instance of [Exception] and was raised by the remote
    call. *)
Theorem run_shield_suppresses_errors self shield_type messages params :
  let attempt := run_shield_try messages params self in
  let o := run_shield shield_type messages params self in
  (∀ e, result attempt = Raise e → is_Exception (exc_class e) = true →
        result o = Ok None ∧
        trace o = trace attempt ++ [EvLog LOG_ERROR (LogApplyGuardrailsError e)]) ∧
  (∀ e, result o = Raise e →
        is_Exception (exc_class e) = false ∧
        ∃ client req, boto_client self = Some client ∧ client req = Raise e).
Proof.
  intros attempt o.
  pose proof (run_shield_try_raise_origin self messages params) as Horigin.
  subst attempt o. rewrite run_shield_unfold.
  destruct (run_shield_try messages params self) as [[returned|e] self1 t]; cbn in *.
  - split; [done|]. intros e [=].
  - destruct (is_Exception (exc_class e)) eqn:Herror; cbn.
    + split; [|intros e' [=]]. intros e' [= <-] _. done.
    + split; [intros e' [= <-]; congruence|].
      intros e' [= <-]. split; [done|].
      destruct (Horigin e eq_refl) as [Hcaught|Hclient]; [congruence | done].
Qed.

Lemma run_shield_suppresses_errors_witness :
  (result (run_shield "bedrock" sample_messages (Some sample_params)
             (adapter_with failing_client)) = Ok None ∧
   trace (run_shield "bedrock" sample_messages (Some sample_params)
            (adapter_with failing_client)) =
     trace (run_shield_try sample_messages (Some sample_params) (adapter_with failing_client))
       ++ [EvLog LOG_ERROR (LogApplyGuardrailsError throttled)]) ∧
  (is_Exception (exc_class (Exc KeyboardInterrupt EmptyString None)) = false ∧
   ∃ client req,
     boto_client (adapter_with (λ _, Raise (Exc KeyboardInterrupt EmptyString None))) =
       Some client ∧
     client req = Raise (Exc KeyboardInterrupt EmptyString None)).
Proof.
  split.
  - apply (proj1 (run_shield_suppresses_errors (adapter_with failing_client) "bedrock"
                    sample_messages (Some sample_params)) throttled).
    + vm_compute. reflexivity.
    + reflexivity.
  - apply (proj2 (run_shield_suppresses_errors
                    (adapter_with (λ _, Raise (Exc KeyboardInterrupt EmptyString None)))
                    "bedrock" sample_messages (Some sample_params))
             (Exc KeyboardInterrupt EmptyString None)).
    vm_compute. reflexivity.
Defined.

(** ** The remote call *)

(** C2.  On an initialised adapter, for every list of messages and every
    [params] holding both keys, [run_shield] calls [apply_guardrail]
    exactly once; the content of the call has one block per message, in
    the order of the messages, each built from the message's [content]
    alone, and the source is ["OUTPUT"]. *)
Theorem run_shield_one_remote_call self shield_type messages
    (d : gmap string PyVal) client gid gversion :
  boto_client self = Some client →
  d !! "guardrailIdentifier" = Some gid →
  d !! "guardrailVersion" = Some gversion →
  ∃ blocks,
    remote_calls (trace (run_shield shield_type messages (Some d) self)) =
      [{| guardrailIdentifier := gid;
          guardrailVersion := gversion;
          source := "OUTPUT";
          content_blocks := blocks |}] ∧
    length blocks = length messages ∧
    ∀ i, blocks !! i =
         (λ message, PDict [(PStr "text", PDict [(PStr "text", PStr (content message))])])
           <$> messages !! i.
Proof.
  intros Hclient Hid Hversion. exists (map content_block messages).
  split; [|split].
  - rewrite run_shield_unfold, (run_shield_try_call _ _ _ _ _ _ Hclient Hid Hversion).
    cbn zeta. unfold request_for.
    destruct (client _) as [response|e].
    + destruct (interpretation response) as [returned|e]; [done|].
      destruct (is_Exception (exc_class e)); done.
    + destruct (is_Exception (exc_class e)); done.
  - apply length_map.
  - intros i. apply list_lookup_fmap.
Qed.

Lemma run_shield_one_remote_call_witness :
  ∃ blocks,
    remote_calls (trace (run_shield "bedrock" sample_messages (Some sample_params)
                           (adapter_with (λ _, Ok passed_response)))) =
      [{| guardrailIdentifier := PStr "gr-1";
          guardrailVersion := PStr "DRAFT";
          source := "OUTPUT";
          content_blocks := blocks |}] ∧
    length blocks = 2 ∧
    ∀ i, blocks !! i =
         (λ message, PDict [(PStr "text", PDict [(PStr "text", PStr (content message))])])
           <$> sample_messages !! i.
Proof.
  apply (run_shield_one_remote_call (adapter_with (λ _, Ok passed_response)) "bedrock"
           sample_messages sample_params (λ _, Ok passed_response) (PStr "gr-1") (PStr "DRAFT")).
  - reflexivity.
  - vm_compute. reflexivity.
  - vm_compute. reflexivity.
Defined.

(** ** Reading the response *)

(** C3.  When the action of the response is ["GUARDRAIL_INTERVENED"] and
    the response has the shape the remote service gives it (the text of
    an output a string, an assessment a mapping from strings), the
    message of the returned violation is the text of the last entry of
    [outputs] and its metadata is the last entry of [assessments],
    whatever the entries before them hold. *)
Theorem run_shield_last_wins self shield_type messages (d : gmap string PyVal)
    client gid gversion response outputs last_output (text : string)
    assessments last_assessment :
  boto_client self = Some client →
  d !! "guardrailIdentifier" = Some gid →
  d !! "guardrailVersion" = Some gversion →
  client (request_for gid gversion messages) = Ok response →
  py_getitem response "action" = Ok (PStr "GUARDRAIL_INTERVENED") →
  py_getitem response "outputs" = Ok (PList (outputs ++ [last_output])) →
  forallb (λ output, is_Ok (py_getitem output "text")) outputs = true →
  py_getitem last_output "text" = Ok (PStr text) →
  py_getitem response "assessments" = Ok (PList (assessments ++ [PDict last_assessment])) →
  forallb (λ assessment, is_Ok (py_dict assessment)) assessments = true →
  str_keys last_assessment = true →
  ∃ violation,
    result (run_shield shield_type messages (Some d) self) = Ok (Some violation) ∧
    user_message violation = PStr text ∧
    metadata violation = last_assessment.
Proof.
  intros Hclient Hid Hversion Hresponse Haction Houtputs Htexts Htext Hassessments Hdicts Hkeys.
  rewrite run_shield_unfold, (run_shield_try_call _ _ _ _ _ _ Hclient Hid Hversion).
  cbn zeta. rewrite Hresponse. unfold interpretation.
  rewrite Haction, Houtputs, Hassessments. cbn.
  rewrite (for_each_last_wins outputs last_output (λ output, py_getitem output "text")
             (PStr "") (PStr text) Htexts Htext). cbn.
  rewrite (for_each_last_wins assessments (PDict last_assessment) py_dict
             [] last_assessment Hdicts eq_refl). cbn.
  rewrite (new_SafetyViolation_valid (PStr text) ERROR last_assessment eq_refl Hkeys). cbn.
  eauto.
Qed.

Lemma run_shield_last_wins_witness :
  ∃ violation,
    result (run_shield "bedrock" sample_messages (Some sample_params)
              (adapter_with (λ _, Ok intervened_response))) = Ok (Some violation) ∧
    user_message violation = PStr "b" ∧
    metadata violation = [(PStr "k", PInt 2)].
Proof.
  apply (run_shield_last_wins (adapter_with (λ _, Ok intervened_response)) "bedrock"
           sample_messages sample_params (λ _, Ok intervened_response)
           (PStr "gr-1") (PStr "DRAFT") intervened_response
           [PDict [(PStr "text", PStr "a")]] (PDict [(PStr "text", PStr "b")]) "b"
           [PDict [(PStr "k", PInt 1)]] [(PStr "k", PInt 2)]).
  all: vm_compute; reflexivity.
Defined.

(** C4.  When the action of the response is not ["GUARDRAIL_INTERVENED"]
    (also when the response has no action to read), [run_shield] returns
    [None], whatever else the response holds. *)
Theorem run_shield_no_intervention self shield_type messages (d : gmap string PyVal)
    client gid gversion response :
  boto_client self = Some client →
  d !! "guardrailIdentifier" = Some gid →
  d !! "guardrailVersion" = Some gversion →
  client (request_for gid gversion messages) = Ok response →
  py_getitem response "action" ≠ Ok (PStr "GUARDRAIL_INTERVENED") →
  result (run_shield shield_type messages (Some d) self) = Ok None.
Proof.
  intros Hclient Hid Hversion Hresponse Haction.
  rewrite run_shield_unfold, (run_shield_try_call _ _ _ _ _ _ Hclient Hid Hversion).
  cbn zeta. rewrite Hresponse. unfold interpretation.
  destruct (py_getitem response "action") as [action|e] eqn:Hget; cbn.
  - destruct (py_eq_str action GUARDRAIL_INTERVENED) eqn:Heq; [|done].
    apply py_eq_str_true in Heq. unfold GUARDRAIL_INTERVENED in Heq. congruence.
  - by rewrite (py_getitem_raises _ _ _ Hget).
Qed.

Lemma run_shield_no_intervention_witness :
  result (run_shield "bedrock" sample_messages (Some sample_params)
            (adapter_with (λ _, Ok passed_response))) = Ok None.
Proof.
  apply (run_shield_no_intervention (adapter_with (λ _, Ok passed_response)) "bedrock"
           sample_messages sample_params (λ _, Ok passed_response)
           (PStr "gr-1") (PStr "DRAFT") passed_response).
  - reflexivity.
  - vm_compute. reflexivity.
  - vm_compute. reflexivity.
  - reflexivity.
  - vm_compute. discriminate.
Defined.

(** C10.  When the action is ["GUARDRAIL_INTERVENED"] and both [outputs]
    and [assessments] are empty lists, [run_shield] still returns a
    violation: its message is the empty string and its metadata the empty
    mapping. *)
Theorem run_shield_empty_intervention self shield_type messages (d : gmap string PyVal)
    client gid gversion response :
  boto_client self = Some client →
  d !! "guardrailIdentifier" = Some gid →
  d !! "guardrailVersion" = Some gversion →
  client (request_for gid gversion messages) = Ok response →
  py_getitem response "action" = Ok (PStr "GUARDRAIL_INTERVENED") →
  py_getitem response "outputs" = Ok (PList []) →
  py_getitem response "assessments" = Ok (PList []) →
  result (run_shield shield_type messages (Some d) self) =
    Ok (Some {| user_message := PStr ""; violation_level := ERROR; metadata := [] |}).
Proof.
  intros Hclient Hid Hversion Hresponse Haction Houtputs Hassessments.
  rewrite run_shield_unfold, (run_shield_try_call _ _ _ _ _ _ Hclient Hid Hversion).
  cbn zeta. rewrite Hresponse. unfold interpretation.
  by rewrite Haction, Houtputs, Hassessments.
Qed.

Lemma run_shield_empty_intervention_witness :
  result (run_shield "bedrock" sample_messages (Some sample_params)
            (adapter_with (λ _, Ok empty_intervened_response))) =
    Ok (Some {| user_message := PStr ""; violation_level := ERROR; metadata := [] |}).
Proof.
  apply (run_shield_empty_intervention (adapter_with (λ _, Ok empty_intervened_response))
           "bedrock" sample_messages sample_params (λ _, Ok empty_intervened_response)
           (PStr "gr-1") (PStr "DRAFT") empty_intervened_response).
  all: vm_compute; reflexivity.
Defined.

(** C7.  A violation returned by [run_shield] has level [ERROR], whatever
    the adapter, the arguments and the response. *)
Theorem run_shield_level_ERROR self shield_type messages params violation :
  result (run_shield shield_type messages params self) = Ok (Some violation) →
  violation_level violation = ERROR.
Proof.
  py_unfold. repeat case_match; simplify_eq/=; try done.
  all: intros [= <-]; try done.
  all: match goal with
       | H : new_SafetyViolation _ _ _ = Ok _ |- _ =>
           apply new_SafetyViolation_Ok in H; by subst
       end.
Qed.

Lemma run_shield_level_ERROR_witness :
  result (run_shield "bedrock" sample_messages (Some sample_params)
            (adapter_with (λ _, Ok intervened_response))) =
    Ok (Some {| user_message := PStr "b";
                violation_level := ERROR;
                metadata := [(PStr "k", PInt 2)] |}) ∧
  violation_level {| user_message := PStr "b";
                     violation_level := ERROR;
                     metadata := [(PStr "k", PInt 2)] |} = ERROR.
Proof.
  assert (result (run_shield "bedrock" sample_messages (Some sample_params)
                    (adapter_with (λ _, Ok intervened_response))) =
            Ok (Some {| user_message := PStr "b";
                        violation_level := ERROR;
                        metadata := [(PStr "k", PInt 2)] |})) as Hrun.
  { vm_compute. reflexivity. }
  split; [exact Hrun|].
  exact (run_shield_level_ERROR _ _ _ _ _ Hrun).
Defined.

(** ** Validation of [params] *)

(** C6.  When [params] lacks [guardrailIdentifier] or [guardrailVersion],
    [run_shield] returns [None] instead of raising, and no remote call is
    made: the [RuntimeError] of the validation is logged and dropped. *)
Theorem run_shield_missing_key self shield_type messages (d : gmap string PyVal) :
  d !! "guardrailIdentifier" = None ∨ d !! "guardrailVersion" = None →
  let o := run_shield shield_type messages (Some d) self in
  result o = Ok None ∧
  remote_calls (trace o) = [] ∧
  ∃ msg,
    trace o =
      [EvLog DEBUG (LogRunShield (Some d) messages);
       EvLog LOG_ERROR (LogApplyGuardrailsError (Exc RuntimeError msg None))].
Proof.
  intros Hmissing o. subst o. rewrite run_shield_unfold.
  destruct (run_shield_try_missing_key self messages d Hmissing) as [msg ->].
  cbn. eauto.
Qed.

Lemma run_shield_missing_key_witness :
  let o := run_shield "bedrock" sample_messages (Some ∅) (adapter_with failing_client) in
  result o = Ok None ∧
  remote_calls (trace o) = [] ∧
  ∃ msg,
    trace o =
      [EvLog DEBUG (LogRunShield (Some ∅) sample_messages);
       EvLog LOG_ERROR (LogApplyGuardrailsError (Exc RuntimeError msg None))].
Proof.
  apply (run_shield_missing_key (adapter_with failing_client) "bedrock" sample_messages ∅).
  left. reflexivity.
Defined.

(** C5 as stated fails: with [guardrailIdentifier] present and equal to
    the empty string, the [try] block raises nothing and the remote call
    is made, the empty identifier in it. *)
Lemma empty_identifier_reaches_remote :
  let self := adapter_with (λ _, Ok passed_response) in
  let o := run_shield_try sample_messages (Some empty_id_params) self in
  empty_id_params !! "guardrailIdentifier" = Some (PStr "") ∧
  result o = Ok None ∧
  remote_calls (trace o) =
    [{| guardrailIdentifier := PStr "";
        guardrailVersion := PStr "DRAFT";
        source := "OUTPUT";
        content_blocks := map content_block sample_messages |}] ∧
  ¬ ((∃ e, result o = Raise e) ∧ remote_calls (trace o) = []).
Proof.
  cbn zeta. split; [vm_compute; reflexivity|].
  split; [vm_compute; reflexivity|].
  split; [vm_compute; reflexivity|].
  intros [_ Hnone]. vm_compute in Hnone. discriminate.
Qed.

(** C5, amended.  The validation looks at the presence of the two keys
    only.  When one is absent the [try] block raises a [RuntimeError]
    before any remote call; when both are present, whatever their values,
    the empty string included, an initialised adapter makes the remote
    call with these values unchanged. *)
Theorem run_shield_validates_presence self messages (d : gmap string PyVal) :
  let o := run_shield_try messages (Some d) self in
  (d !! "guardrailIdentifier" = None ∨ d !! "guardrailVersion" = None →
   (∃ msg, result o = Raise (Exc RuntimeError msg None)) ∧ remote_calls (trace o) = []) ∧
  (∀ client gid gversion,
     boto_client self = Some client →
     d !! "guardrailIdentifier" = Some gid →
     d !! "guardrailVersion" = Some gversion →
     remote_calls (trace o) =
       [{| guardrailIdentifier := gid;
           guardrailVersion := gversion;
           source := "OUTPUT";
           content_blocks := map content_block messages |}]).
Proof.
  intros o. subst o. split.
  - intros Hmissing.
    destruct (run_shield_try_missing_key self messages d Hmissing) as [msg ->].
    cbn. eauto.
  - intros client gid gversion Hclient Hid Hversion.
    rewrite (run_shield_try_call _ _ _ _ _ _ Hclient Hid Hversion). cbn zeta.
    unfold request_for. destruct (client _); done.
Qed.

Lemma run_shield_validates_presence_witness :
  ((∃ msg, result (run_shield_try sample_messages (Some ∅) (adapter_with failing_client))
             = Raise (Exc RuntimeError msg None)) ∧
   remote_calls (trace (run_shield_try sample_messages (Some ∅) (adapter_with failing_client)))
     = []) ∧
  remote_calls (trace (run_shield_try sample_messages (Some empty_id_params)
                         (adapter_with failing_client))) =
    [{| guardrailIdentifier := PStr "";
        guardrailVersion := PStr "DRAFT";
        source := "OUTPUT";
        content_blocks := map content_block sample_messages |}].
Proof.
  split.
  - apply (proj1 (run_shield_validates_presence (adapter_with failing_client)
                    sample_messages ∅)).
    left. reflexivity.
  - apply (proj2 (run_shield_validates_presence (adapter_with failing_client)
                    sample_messages empty_id_params) failing_client (PStr "") (PStr "DRAFT")).
    + reflexivity.
    + vm_compute. reflexivity.
    + vm_compute. reflexivity.
Defined.

(** C9.  Called without [params] (the default [None]), [run_shield]
    returns [None] and makes no remote call: the membership test on [None]
    raises a [TypeError], which the handler logs and drops. *)
Theorem run_shield_without_params self shield_type messages :
  let o := run_shield shield_type messages None self in
  result o = Ok None ∧
  remote_calls (trace o) = [] ∧
  trace o =
    [EvLog DEBUG (LogRunShield None messages);
     EvLog LOG_ERROR
       (LogApplyGuardrailsError
          (Exc TypeError "argument of type 'NoneType' is not iterable" None))].
Proof. cbn. done. Qed.

(** ** [initialize] *)

Ltac init_unfold :=
  unfold initialize, try_except_Exception, get_self, set_self, emit, lift, raise,
    mbind, Py_bind, mret, Py_ret;
  cbn.

(** C8.  Without a configured profile [initialize] raises a
    [RuntimeError] to its caller before any session is created or any
    other effect takes place.  With a profile, a failure of the session
    construction is raised to the caller as well: an error is wrapped in
    a [RuntimeError] whose cause it is, and the client stays unset. *)
Theorem initialize_failures_are_raised boto3_Session_client str_config self :
  let o := initialize boto3_Session_client str_config self in
  let profile := aws_profile (config self) in
  if truthy profile then
    trace o =
      [EvPrint ("initializing with profile --- > " +:+ str_config (config self) +:+ "::");
       EvSession profile] ∧
    match boto3_Session_client profile with
    | Ok client =>
        result o = Ok () ∧ boto_client (self_after o) = Some client
    | Raise e =>
        boto_client (self_after o) = boto_client self ∧
        result o =
          Raise (if is_Exception (exc_class e) then
                   Exc RuntimeError
                     ("Error initializing BedrockSafetyAdapter: " +:+ exc_str e) (Some e)
                 else e)
    end
  else
    result o =
      Raise (Exc RuntimeError
               ("Missing boto_client aws_profile in model info::" +:+ str_config (config self))
               None) ∧
    trace o = [] ∧
    self_after o = self.
Proof.
  init_unfold. destruct (truthy (aws_profile (config self))); cbn; [|done].
  destruct (boto3_Session_client _) as [client|e]; cbn; [done|].
  destruct (is_Exception (exc_class e)); done.
Qed.

(** [shutdown] does nothing. *)
Lemma shutdown_noop self : shutdown self = MkOutcome (Ok ()) self [].
Proof. reflexivity. Qed.

(** ** Runs on sample data *)

Example initialize_without_profile :
  let o := initialize (λ _, Ok failing_client) (λ _, "cfg")
             (new_adapter {| aws_profile := None |}) in
  result o = Raise (Exc RuntimeError "Missing boto_client aws_profile in model info::cfg" None)
  ∧ trace o = [].
Proof. split; reflexivity. Qed.

Example initialize_session_failure :
  let o := initialize (λ _, Raise no_credentials) (λ _, "cfg") (new_adapter sample_config) in
  result o =
    Raise (Exc RuntimeError
             "Error initializing BedrockSafetyAdapter: The config profile (default) could not be found"
             (Some no_credentials))
  ∧ boto_client (self_after o) = None.
Proof. split; reflexivity. Qed.

Example initialize_then_run_shield :
  let o := initialize (λ _, Ok (λ _, Ok intervened_response)) (λ _, "cfg")
             (new_adapter sample_config) in
  result o = Ok () ∧
  result (run_shield "bedrock" sample_messages (Some sample_params) (self_after o)) =
    Ok (Some {| user_message := PStr "b";
                violation_level := ERROR;
                metadata := [(PStr "k", PInt 2)] |}).
Proof. split; vm_compute; reflexivity. Qed.

(** Before [initialize] the attribute [boto_client] does not exist: the
    [AttributeError] is dropped like any other error, without a call. *)
Example run_shield_before_initialize :
  let o := run_shield "bedrock" sample_messages (Some sample_params)
             (new_adapter sample_config) in
  result o = Ok None ∧ remote_calls (trace o) = [].
Proof. split; vm_compute; reflexivity. Qed.

(** A response without [outputs] when the guardrail intervened. *)
Example run_shield_malformed_response :
  let o := run_shield "bedrock" sample_messages (Some sample_params)
             (adapter_with (λ _, Ok (PDict [(PStr "action", PStr "GUARDRAIL_INTERVENED")]))) in
  result o = Ok None ∧
  last (trace o) =
    Some (EvLog LOG_ERROR (LogApplyGuardrailsError (Exc KeyError "'outputs'" None))).
Proof. split; vm_compute; reflexivity. Qed.

(** * Further properties of the adapter *)

(** ** The shapes of a run of the [try] block *)

Lemma run_shield_try_no_params self messages :
  run_shield_try messages None self =
  MkOutcome (Raise (Exc TypeError "argument of type 'NoneType' is not iterable" None)) self
    [EvLog DEBUG (LogRunShield None messages)].
Proof. reflexivity. Qed.

Lemma run_shield_try_missing_id self messages (d : gmap string PyVal) :
  d !! "guardrailIdentifier" = None →
  run_shield_try messages (Some d) self =
  MkOutcome
    (Raise (Exc RuntimeError
              "Error running request for BedrockGaurdrails:Missing GuardrailID in request"
              None))
    self [EvLog DEBUG (LogRunShield (Some d) messages)].
Proof. intros Hid. py_unfold. rewrite Hid. reflexivity. Qed.

Lemma run_shield_try_missing_version self messages (d : gmap string PyVal) gid :
  d !! "guardrailIdentifier" = Some gid →
  d !! "guardrailVersion" = None →
  run_shield_try messages (Some d) self =
  MkOutcome
    (Raise (Exc RuntimeError
              "Error running request for BedrockGaurdrails:Missing guardrailVersion in request"
              None))
    self [EvLog DEBUG (LogRunShield (Some d) messages)].
Proof. intros Hid Hversion. py_unfold. rewrite Hid, Hversion. reflexivity. Qed.

Lemma run_shield_try_no_client self messages (d : gmap string PyVal) gid gversion :
  boto_client self = None →
  d !! "guardrailIdentifier" = Some gid →
  d !! "guardrailVersion" = Some gversion →
  run_shield_try messages (Some d) self =
  MkOutcome
    (Raise (Exc AttributeError
              "'BedrockSafetyAdapter' object has no attribute 'boto_client'" None))
    self
    [EvLog DEBUG (LogRunShield (Some d) messages);
     EvLog DEBUG (LogFinalMessages (map content_block messages))].
Proof.
  intros Hclient Hid Hversion. py_unfold. rewrite Hid, Hversion. cbn -[lookup].
  rewrite Hclient. cbn. by rewrite content_messages_map.
Qed.

(** Case analysis on how far a run gets: stopped by the validation,
    stopped for want of a client, or through to the remote call. *)
Ltac run_shield_cases self params :=
  let d := fresh "d" in
  let gid := fresh "gid" in
  let gversion := fresh "gversion" in
  let client := fresh "client" in
  let Hid := fresh "Hid" in
  let Hversion := fresh "Hversion" in
  let Hclient := fresh "Hclient" in
  destruct params as [d|];
  [ destruct (d !! "guardrailIdentifier") as [gid|] eqn:Hid;
    [ destruct (d !! "guardrailVersion") as [gversion|] eqn:Hversion;
      [ destruct (boto_client self) as [client|] eqn:Hclient;
        [ rewrite ?run_shield_unfold,
            ?(run_shield_try_call _ _ _ _ _ _ Hclient Hid Hversion)
        | rewrite ?run_shield_unfold,
            ?(run_shield_try_no_client _ _ _ _ _ Hclient Hid Hversion) ]
      | rewrite ?run_shield_unfold, ?(run_shield_try_missing_version _ _ _ _ Hid Hversion) ]
    | rewrite ?run_shield_unfold, ?(run_shield_try_missing_id _ _ _ Hid) ]
  | rewrite ?run_shield_unfold, ?run_shield_try_no_params ];
  cbn -[lookup].

(** ** What [run_shield] never does *)

(** X1.  [run_shield] leaves the adapter as it found it: it reads the
    attributes of [self] and assigns none, whatever happens. *)
Theorem run_shield_keeps_self self shield_type messages params :
  self_after (run_shield shield_type messages params self) = self.
Proof. py_unfold. repeat case_match; simplify_eq/=; done. Qed.

(** X2.  A run of [run_shield] makes at most one remote call: nothing is
    retried, whatever the client answers. *)
Theorem run_shield_at_most_one_call self shield_type messages params :
  length (remote_calls (trace (run_shield shield_type messages params self))) ≤ 1.
Proof.
  run_shield_cases self params; try (cbn; lia).
  unfold request_for.
  destruct (client _) as [response|e].
  - destruct (interpretation response) as [returned|e]; [cbn; lia|].
    destruct (is_Exception (exc_class e)); cbn; lia.
  - destruct (is_Exception (exc_class e)); cbn; lia.
Qed.

(** X3.  [run_shield] returns a violation only on the word of the remote
    service: both keys were present, the adapter had a client, the call
    was answered, and the action of the answer is
    ["GUARDRAIL_INTERVENED"]. *)
Theorem run_shield_violation_from_remote self shield_type messages params violation :
  result (run_shield shield_type messages params self) = Ok (Some violation) →
  ∃ (d : gmap string PyVal) client gid gversion response,
    params = Some d ∧
    boto_client self = Some client ∧
    d !! "guardrailIdentifier" = Some gid ∧
    d !! "guardrailVersion" = Some gversion ∧
    client {| guardrailIdentifier := gid;
              guardrailVersion := gversion;
              source := "OUTPUT";
              content_blocks := map content_block messages |} = Ok response ∧
    py_getitem response "action" = Ok (PStr "GUARDRAIL_INTERVENED").
Proof.
  run_shield_cases self params; try done.
  unfold request_for.
  destruct (client _) as [response|e] eqn:Hresponse.
  - intros Hresult. exists d, client, gid, gversion, response.
    repeat split; try done.
    unfold interpretation in Hresult.
    destruct (py_getitem response "action") as [action|e] eqn:Haction; cbn in Hresult.
    + destruct (py_eq_str action GUARDRAIL_INTERVENED) eqn:Heq; [|done].
      apply py_eq_str_true in Heq. by rewrite Heq.
    + by destruct (is_Exception (exc_class e)).
  - by destruct (is_Exception (exc_class e)).
Qed.

Lemma run_shield_violation_from_remote_witness :
  ∃ (d : gmap string PyVal) client gid gversion response,
    Some sample_params = Some d ∧
    boto_client (adapter_with (λ _, Ok intervened_response)) = Some client ∧
    d !! "guardrailIdentifier" = Some gid ∧
    d !! "guardrailVersion" = Some gversion ∧
    client {| guardrailIdentifier := gid;
              guardrailVersion := gversion;
              source := "OUTPUT";
              content_blocks := map content_block sample_messages |} = Ok response ∧
    py_getitem response "action" = Ok (PStr "GUARDRAIL_INTERVENED").
Proof.
  apply (run_shield_violation_from_remote (adapter_with (λ _, Ok intervened_response))
           "bedrock" sample_messages (Some sample_params)
           {| user_message := PStr "b";
              violation_level := ERROR;
              metadata := [(PStr "k", PInt 2)] |}).
  vm_compute. reflexivity.
Defined.

(** X5.  An adapter whose client has not been set, as [__init__] leaves
    it, answers [None] to every call of [run_shield] and makes no remote
    call. *)
Theorem run_shield_without_client self shield_type messages params :
  boto_client self = None →
  let o := run_shield shield_type messages params self in
  result o = Ok None ∧ remote_calls (trace o) = [].
Proof.
  intros Hnone o. subst o. run_shield_cases self params; try done.
Qed.

Lemma run_shield_without_client_witness :
  let o := run_shield "bedrock" sample_messages (Some sample_params)
             (new_adapter sample_config) in
  result o = Ok None ∧ remote_calls (trace o) = [].
Proof.
  apply (run_shield_without_client (new_adapter sample_config) "bedrock" sample_messages
           (Some sample_params)).
  reflexivity.
Defined.

(** ** What [run_shield] depends on *)

Lemma content_block_of_content messages :
  map content_block messages =
  map (λ text, PDict [(PStr "text", PDict [(PStr "text", PStr text)])]) (map content messages).
Proof. by rewrite map_map. Qed.

(** X4.  [run_shield] looks at the [content] of the messages only: two
    calls whose messages have the same contents in the same order, with
    whatever roles and whatever [shield_type], return the same value and
    send the same request. *)
Theorem run_shield_reads_content_only self shield_type1 shield_type2
    messages1 messages2 params :
  map content messages1 = map content messages2 →
  result (run_shield shield_type1 messages1 params self) =
    result (run_shield shield_type2 messages2 params self) ∧
  remote_calls (trace (run_shield shield_type1 messages1 params self)) =
    remote_calls (trace (run_shield shield_type2 messages2 params self)).
Proof.
  intros Hcontent.
  assert (map content_block messages1 = map content_block messages2) as Hblocks.
  { by rewrite !content_block_of_content, Hcontent. }
  destruct params as [d|].
  - destruct (d !! "guardrailIdentifier") as [gid|] eqn:Hid.
    + destruct (d !! "guardrailVersion") as [gversion|] eqn:Hversion.
      * destruct (boto_client self) as [client|] eqn:Hclient.
        -- rewrite !run_shield_unfold.
           rewrite (run_shield_try_call self messages1 d client gid gversion Hclient Hid Hversion).
           rewrite (run_shield_try_call self messages2 d client gid gversion Hclient Hid Hversion).
           cbn zeta. unfold request_for, events_up_to_call. rewrite Hblocks.
           destruct (client _) as [response|e].
           ++ destruct (interpretation response) as [returned|e]; [done|].
              destruct (is_Exception (exc_class e)); done.
           ++ destruct (is_Exception (exc_class e)); done.
        -- rewrite !run_shield_unfold.
           rewrite (run_shield_try_no_client self messages1 d gid gversion Hclient Hid Hversion).
           rewrite (run_shield_try_no_client self messages2 d gid gversion Hclient Hid Hversion).
           done.
      * rewrite !run_shield_unfold.
        rewrite (run_shield_try_missing_version self messages1 d gid Hid Hversion).
        rewrite (run_shield_try_missing_version self messages2 d gid Hid Hversion).
        done.
    + rewrite !run_shield_unfold.
      rewrite (run_shield_try_missing_id self messages1 d Hid).
      rewrite (run_shield_try_missing_id self messages2 d Hid).
      done.
  - done.
Qed.

Lemma run_shield_reads_content_only_witness :
  let as_system := [{| role := system; content := "hello" |};
                    {| role := system; content := "world" |}] in
  let self := adapter_with (λ _, Ok intervened_response) in
  result (run_shield "bedrock" sample_messages (Some sample_params) self) =
    result (run_shield "other" as_system (Some sample_params) self) ∧
  remote_calls (trace (run_shield "bedrock" sample_messages (Some sample_params) self)) =
    remote_calls (trace (run_shield "other" as_system (Some sample_params) self)).
Proof.
  apply (run_shield_reads_content_only (adapter_with (λ _, Ok intervened_response))
           "bedrock" "other" sample_messages
           [{| role := system; content := "hello" |}; {| role := system; content := "world" |}]
           (Some sample_params)).
  reflexivity.
Defined.

(** ** Failures of the remote call *)

(** X6.  When the remote call fails with an error, [run_shield] returns
    [None] after exactly that one call; the error it logs is the one the
    client raised, and no response is logged. *)
Theorem run_shield_remote_failure self shield_type messages (d : gmap string PyVal)
    client gid gversion e :
  boto_client self = Some client →
  d !! "guardrailIdentifier" = Some gid →
  d !! "guardrailVersion" = Some gversion →
  client {| guardrailIdentifier := gid;
            guardrailVersion := gversion;
            source := "OUTPUT";
            content_blocks := map content_block messages |} = Raise e →
  is_Exception (exc_class e) = true →
  run_shield shield_type messages (Some d) self =
  MkOutcome (Ok None) self
    [EvLog DEBUG (LogRunShield (Some d) messages);
     EvLog DEBUG (LogFinalMessages (map content_block messages));
     EvApplyGuardrail {| guardrailIdentifier := gid;
                         guardrailVersion := gversion;
                         source := "OUTPUT";
                         content_blocks := map content_block messages |};
     EvLog LOG_ERROR (LogApplyGuardrailsError e)].
Proof.
  intros Hclient Hid Hversion Hfail Herror.
  rewrite run_shield_unfold, (run_shield_try_call _ _ _ _ _ _ Hclient Hid Hversion).
  cbn zeta. unfold request_for. rewrite Hfail, Herror. reflexivity.
Qed.

Lemma run_shield_remote_failure_witness :
  run_shield "bedrock" sample_messages (Some sample_params) (adapter_with failing_client) =
  MkOutcome (Ok None) (adapter_with failing_client)
    [EvLog DEBUG (LogRunShield (Some sample_params) sample_messages);
     EvLog DEBUG (LogFinalMessages (map content_block sample_messages));
     EvApplyGuardrail {| guardrailIdentifier := PStr "gr-1";
                         guardrailVersion := PStr "DRAFT";
                         source := "OUTPUT";
                         content_blocks := map content_block sample_messages |};
     EvLog LOG_ERROR (LogApplyGuardrailsError throttled)].
Proof.
  apply (run_shield_remote_failure (adapter_with failing_client) "bedrock" sample_messages
           sample_params failing_client (PStr "gr-1") (PStr "DRAFT") throttled).
  - reflexivity.
  - vm_compute. reflexivity.
  - vm_compute. reflexivity.
  - reflexivity.
  - reflexivity.
Defined.

(** X7.  The handler is [except Exception]: what the remote call raises
    outside that class ([KeyboardInterrupt], [SystemExit]) leaves
    [run_shield] as it is, to the caller, and no error record is
    logged. *)
Theorem run_shield_interrupt_propagates self shield_type messages (d : gmap string PyVal)
    client gid gversion e :
  boto_client self = Some client →
  d !! "guardrailIdentifier" = Some gid →
  d !! "guardrailVersion" = Some gversion →
  client {| guardrailIdentifier := gid;
            guardrailVersion := gversion;
            source := "OUTPUT";
            content_blocks := map content_block messages |} = Raise e →
  is_Exception (exc_class e) = false →
  run_shield shield_type messages (Some d) self =
  MkOutcome (Raise e) self
    [EvLog DEBUG (LogRunShield (Some d) messages);
     EvLog DEBUG (LogFinalMessages (map content_block messages));
     EvApplyGuardrail {| guardrailIdentifier := gid;
                         guardrailVersion := gversion;
                         source := "OUTPUT";
                         content_blocks := map content_block messages |}].
Proof.
  intros Hclient Hid Hversion Hfail Hsignal.
  rewrite run_shield_unfold, (run_shield_try_call _ _ _ _ _ _ Hclient Hid Hversion).
  cbn zeta. unfold request_for. rewrite Hfail, Hsignal. reflexivity.
Qed.

Lemma run_shield_interrupt_propagates_witness :
  run_shield "bedrock" sample_messages (Some sample_params)
    (adapter_with (λ _, Raise (Exc KeyboardInterrupt EmptyString None))) =
  MkOutcome (Raise (Exc KeyboardInterrupt EmptyString None))
    (adapter_with (λ _, Raise (Exc KeyboardInterrupt EmptyString None)))
    [EvLog DEBUG (LogRunShield (Some sample_params) sample_messages);
     EvLog DEBUG (LogFinalMessages (map content_block sample_messages));
     EvApplyGuardrail {| guardrailIdentifier := PStr "gr-1";
                         guardrailVersion := PStr "DRAFT";
                         source := "OUTPUT";
                         content_blocks := map content_block sample_messages |}].
Proof.
  apply (run_shield_interrupt_propagates
           (adapter_with (λ _, Raise (Exc KeyboardInterrupt EmptyString None)))
           "bedrock" sample_messages sample_params
           (λ _, Raise (Exc KeyboardInterrupt EmptyString None))
           (PStr "gr-1") (PStr "DRAFT") (Exc KeyboardInterrupt EmptyString None)).
  - reflexivity.
  - vm_compute. reflexivity.
  - vm_compute. reflexivity.
  - reflexivity.
  - reflexivity.
Defined.

(** ** Responses the adapter cannot read *)

Lemma interpretation_raises response : raises_errors_only (interpretation response).
Proof.
  unfold interpretation.
  apply raises_errors_only_bind; [auto with py_errors|]. intros action.
  destruct (py_eq_str action GUARDRAIL_INTERVENED); [|done].
  repeat (apply raises_errors_only_bind; [auto with py_errors | intros ?]).
  done.
Qed.

(** A response whose reading fails gives [None], the error logged after
    the response. *)
Lemma run_shield_unreadable_response self shield_type messages (d : gmap string PyVal)
    client gid gversion response e :
  boto_client self = Some client →
  d !! "guardrailIdentifier" = Some gid →
  d !! "guardrailVersion" = Some gversion →
  client (request_for gid gversion messages) = Ok response →
  interpretation response = Raise e →
  run_shield shield_type messages (Some d) self =
  MkOutcome (Ok None) self
    (events_up_to_call (Some d) messages (request_for gid gversion messages) ++
     [EvLog DEBUG (LogResponse response); EvLog LOG_ERROR (LogApplyGuardrailsError e)]).
Proof.
  intros Hclient Hid Hversion Hresponse Hfail.
  rewrite run_shield_unfold, (run_shield_try_call _ _ _ _ _ _ Hclient Hid Hversion).
  cbn zeta. rewrite Hresponse, Hfail, (interpretation_raises _ _ Hfail). reflexivity.
Qed.

(** A loop stops at the first item its body fails on, whatever comes
    after. *)
Lemma for_each_fails {S} before bad after (body : PyVal → Result S) s :
  is_Ok (body bad) = false →
  is_Ok (for_each (before ++ bad :: after) (λ _ y, body y) s) = false.
Proof.
  intros Hbad. revert s. induction before as [|y rest IH]; intros s; cbn.
  - destruct (body bad); done.
  - destruct (body y); cbn; [apply IH | done].
Qed.

Lemma not_Ok_Raise {A} (r : Result A) : is_Ok r = false → ∃ e, r = Raise e.
Proof. destruct r; [done | eauto]. Qed.

(** X8.  When the guardrail intervened and some entry of [outputs],
    wherever it stands, has no [text], [run_shield] returns [None]: the
    entries after it, the last one included, are not looked at. *)
Theorem run_shield_bad_output_entry self shield_type messages (d : gmap string PyVal)
    client gid gversion response before bad after :
  boto_client self = Some client →
  d !! "guardrailIdentifier" = Some gid →
  d !! "guardrailVersion" = Some gversion →
  client {| guardrailIdentifier := gid;
            guardrailVersion := gversion;
            source := "OUTPUT";
            content_blocks := map content_block messages |} = Ok response →
  py_getitem response "action" = Ok (PStr "GUARDRAIL_INTERVENED") →
  py_getitem response "outputs" = Ok (PList (before ++ bad :: after)) →
  is_Ok (py_getitem bad "text") = false →
  result (run_shield shield_type messages (Some d) self) = Ok None.
Proof.
  intros Hclient Hid Hversion Hresponse Haction Houtputs Hbad.
  assert (∃ e, interpretation response = Raise e) as [e Hfail].
  { apply not_Ok_Raise. unfold interpretation. rewrite Haction, Houtputs. cbn.
    pose proof (for_each_fails before bad after (λ output, py_getitem output "text")
                  (PStr "") Hbad) as Hloop.
    destruct (for_each _ _ _); done. }
  by rewrite (run_shield_unreadable_response _ _ _ _ _ _ _ _ _
                Hclient Hid Hversion Hresponse Hfail).
Qed.

Lemma run_shield_bad_output_entry_witness :
  let response :=
    PDict [(PStr "action", PStr "GUARDRAIL_INTERVENED");
           (PStr "outputs", PList [PDict [(PStr "txt", PStr "a")];
                                   PDict [(PStr "text", PStr "b")]]);
           (PStr "assessments", PList [])] in
  result (run_shield "bedrock" sample_messages (Some sample_params)
            (adapter_with (λ _, Ok response))) = Ok None.
Proof.
  cbn zeta.
  eapply (run_shield_bad_output_entry _ "bedrock" sample_messages sample_params
            _ (PStr "gr-1") (PStr "DRAFT") _ [] (PDict [(PStr "txt", PStr "a")])
            [PDict [(PStr "text", PStr "b")]]).
  - reflexivity.
  - vm_compute. reflexivity.
  - vm_compute. reflexivity.
  - reflexivity.
  - vm_compute. reflexivity.
  - vm_compute. reflexivity.
  - vm_compute. reflexivity.
Defined.

(** X9.  When the guardrail intervened and some entry of [assessments]
    cannot be turned into a dict, [run_shield] returns [None], whatever
    [outputs] holds. *)
Theorem run_shield_bad_assessment_entry self shield_type messages (d : gmap string PyVal)
    client gid gversion response before bad after :
  boto_client self = Some client →
  d !! "guardrailIdentifier" = Some gid →
  d !! "guardrailVersion" = Some gversion →
  client {| guardrailIdentifier := gid;
            guardrailVersion := gversion;
            source := "OUTPUT";
            content_blocks := map content_block messages |} = Ok response →
  py_getitem response "action" = Ok (PStr "GUARDRAIL_INTERVENED") →
  py_getitem response "assessments" = Ok (PList (before ++ bad :: after)) →
  is_Ok (py_dict bad) = false →
  result (run_shield shield_type messages (Some d) self) = Ok None.
Proof.
  intros Hclient Hid Hversion Hresponse Haction Hassessments Hbad.
  assert (∃ e, interpretation response = Raise e) as [e Hfail].
  { apply not_Ok_Raise. unfold interpretation. rewrite Haction, Hassessments. cbn.
    destruct (py_getitem response "outputs" ≫= py_iter) as [outputs|]; [cbn|done].
    destruct (for_each outputs _ _); [cbn|done].
    pose proof (for_each_fails before bad after py_dict [] Hbad) as Hloop.
    destruct (for_each _ _ _); done. }
  by rewrite (run_shield_unreadable_response _ _ _ _ _ _ _ _ _
                Hclient Hid Hversion Hresponse Hfail).
Qed.

Lemma run_shield_bad_assessment_entry_witness :
  let response :=
    PDict [(PStr "action", PStr "GUARDRAIL_INTERVENED");
           (PStr "outputs", PList [PDict [(PStr "text", PStr "b")]]);
           (PStr "assessments", PList [PDict [(PStr "k", PInt 1)]; PInt 7])] in
  result (run_shield "bedrock" sample_messages (Some sample_params)
            (adapter_with (λ _, Ok response))) = Ok None.
Proof.
  cbn zeta.
  eapply (run_shield_bad_assessment_entry _ "bedrock" sample_messages sample_params
            _ (PStr "gr-1") (PStr "DRAFT") _ [PDict [(PStr "k", PInt 1)]] (PInt 7) []).
  - reflexivity.
  - vm_compute. reflexivity.
  - vm_compute. reflexivity.
  - reflexivity.
  - vm_compute. reflexivity.
  - vm_compute. reflexivity.
  - vm_compute. reflexivity.
Defined.

(** X10.  When the guardrail intervened and the response is a dict
    without the key [outputs], [run_shield] returns [None]; the response
    is logged, and after it the [KeyError] for ['outputs']. *)
Theorem run_shield_missing_outputs self shield_type messages (d : gmap string PyVal)
    client gid gversion entries :
  boto_client self = Some client →
  d !! "guardrailIdentifier" = Some gid →
  d !! "guardrailVersion" = Some gversion →
  client {| guardrailIdentifier := gid;
            guardrailVersion := gversion;
            source := "OUTPUT";
            content_blocks := map content_block messages |} = Ok (PDict entries) →
  dict_get entries (PStr "action") = Some (PStr "GUARDRAIL_INTERVENED") →
  dict_get entries (PStr "outputs") = None →
  let o := run_shield shield_type messages (Some d) self in
  result o = Ok None ∧
  ∃ before,
    trace o =
      before ++ [EvLog DEBUG (LogResponse (PDict entries));
                 EvLog LOG_ERROR (LogApplyGuardrailsError (Exc KeyError "'outputs'" None))].
Proof.
  intros Hclient Hid Hversion Hresponse Haction Houtputs o. subst o.
  assert (interpretation (PDict entries) = Raise (Exc KeyError "'outputs'" None)) as Hfail.
  { unfold interpretation. cbn. rewrite Haction. cbn. by rewrite Houtputs. }
  rewrite (run_shield_unreadable_response _ _ _ _ _ _ _ _ _
             Hclient Hid Hversion Hresponse Hfail).
  cbn [result trace]. eauto.
Qed.

Lemma run_shield_missing_outputs_witness :
  let entries := [(PStr "action", PStr "GUARDRAIL_INTERVENED")] in
  let o := run_shield "bedrock" sample_messages (Some sample_params)
             (adapter_with (λ _, Ok (PDict entries))) in
  result o = Ok None ∧
  ∃ before,
    trace o =
      before ++ [EvLog DEBUG (LogResponse (PDict entries));
                 EvLog LOG_ERROR (LogApplyGuardrailsError (Exc KeyError "'outputs'" None))].
Proof.
  cbn zeta.
  eapply (run_shield_missing_outputs _ "bedrock" sample_messages sample_params
            _ (PStr "gr-1") (PStr "DRAFT") [(PStr "action", PStr "GUARDRAIL_INTERVENED")]).
  - reflexivity.
  - vm_compute. reflexivity.
  - vm_compute. reflexivity.
  - reflexivity.
  - reflexivity.
  - reflexivity.
Defined.

(** ** The violation that is returned *)

(** A loop over items its body succeeds on leaves the local at the value
    of the last item, or where it was when there is none. *)
Lemma for_each_last_or_default {S} items values (body : PyVal → Result S) s :
  Forall2 (λ y v, body y = Ok v) items values →
  for_each items (λ _ y, body y) s = Ok (default s (last values)).
Proof.
  intros Hall. revert s. induction Hall as [|y v items values Hy Hrest IH]; intros s; cbn.
  - done.
  - rewrite Hy. cbn. rewrite IH. destruct values as [|w values']; [done|].
    change (last (v :: w :: values')) with (last (w :: values')).
    destruct (last (w :: values')) eqn:Hlast; [done|]. by apply last_None in Hlast.
Qed.

(** X11.  When the guardrail intervened, every entry can be read, the
    text of the last output is a string and the keys of the last
    assessment are strings, the message and the metadata of the violation
    are chosen apart from each other: the message is the text of the last
    output, or the empty string when [outputs] is empty; the metadata is
    the last assessment as a dict, or the empty dict when [assessments]
    is empty. *)
Theorem run_shield_last_or_default self shield_type messages (d : gmap string PyVal)
    client gid gversion response outputs texts assessments dicts :
  boto_client self = Some client →
  d !! "guardrailIdentifier" = Some gid →
  d !! "guardrailVersion" = Some gversion →
  client {| guardrailIdentifier := gid;
            guardrailVersion := gversion;
            source := "OUTPUT";
            content_blocks := map content_block messages |} = Ok response →
  py_getitem response "action" = Ok (PStr "GUARDRAIL_INTERVENED") →
  py_getitem response "outputs" = Ok (PList outputs) →
  Forall2 (λ output text, py_getitem output "text" = Ok text) outputs texts →
  py_getitem response "assessments" = Ok (PList assessments) →
  Forall2 (λ assessment entries, py_dict assessment = Ok entries) assessments dicts →
  (∀ text, last texts = Some text → is_str text = true) →
  (∀ entries, last dicts = Some entries → str_keys entries = true) →
  result (run_shield shield_type messages (Some d) self) =
    Ok (Some {| user_message := default (PStr EmptyString) (last texts);
                violation_level := ERROR;
                metadata := default [] (last dicts) |}).
Proof.
  intros Hclient Hid Hversion Hresponse Haction Houtputs Htexts Hassessments Hdicts
    Hstr Hkeys.
  rewrite run_shield_unfold, (run_shield_try_call _ _ _ _ _ _ Hclient Hid Hversion).
  cbn zeta. unfold request_for. rewrite Hresponse. unfold interpretation.
  rewrite Haction, Houtputs, Hassessments. cbn.
  rewrite (for_each_last_or_default outputs texts (λ output, py_getitem output "text")
             (PStr EmptyString) Htexts). cbn.
  rewrite (for_each_last_or_default assessments dicts py_dict [] Hdicts). cbn.
  rewrite new_SafetyViolation_valid; [done| |].
  - destruct (last texts) as [text|]; [|done].
    specialize (Hstr text eq_refl). by destruct text.
  - destruct (last dicts) as [entries|]; [|done]. by apply Hkeys.
Qed.

Lemma run_shield_last_or_default_witness :
  let response :=
    PDict [(PStr "action", PStr "GUARDRAIL_INTERVENED");
           (PStr "outputs", PList []);
           (PStr "assessments", PList [PDict [(PStr "k", PInt 1)];
                                       PList [PList [PStr "k"; PInt 2]]])] in
  result (run_shield "bedrock" sample_messages (Some sample_params)
            (adapter_with (λ _, Ok response))) =
    Ok (Some {| user_message := PStr EmptyString;
                violation_level := ERROR;
                metadata := [(PStr "k", PInt 2)] |}).
Proof.
  cbn zeta.
  eapply (run_shield_last_or_default _ "bedrock" sample_messages sample_params
            _ (PStr "gr-1") (PStr "DRAFT") _ [] []
            [PDict [(PStr "k", PInt 1)]; PList [PList [PStr "k"; PInt 2]]]
            [[(PStr "k", PInt 1)]; [(PStr "k", PInt 2)]]).
  - reflexivity.
  - vm_compute. reflexivity.
  - vm_compute. reflexivity.
  - reflexivity.
  - vm_compute. reflexivity.
  - vm_compute. reflexivity.
  - constructor.
  - vm_compute. reflexivity.
  - repeat constructor.
  - intros text [=].
  - intros entries [= <-]. reflexivity.
Defined.

(** ** The order of the validation *)

(** X12.  The identifier is checked before the version.  When
    [guardrailIdentifier] is missing the logged error names the
    GuardrailID, whether or not [guardrailVersion] is there; the error
    that names the version is logged only when the identifier is
    present. *)
Theorem run_shield_validation_order self shield_type messages (d : gmap string PyVal) :
  let o := run_shield shield_type messages (Some d) self in
  (d !! "guardrailIdentifier" = None →
   trace o =
     [EvLog DEBUG (LogRunShield (Some d) messages);
      EvLog LOG_ERROR
        (LogApplyGuardrailsError
           (Exc RuntimeError
              "Error running request for BedrockGaurdrails:Missing GuardrailID in request"
              None))]) ∧
  (is_Some (d !! "guardrailIdentifier") → d !! "guardrailVersion" = None →
   trace o =
     [EvLog DEBUG (LogRunShield (Some d) messages);
      EvLog LOG_ERROR
        (LogApplyGuardrailsError
           (Exc RuntimeError
              "Error running request for BedrockGaurdrails:Missing guardrailVersion in request"
              None))]).
Proof.
  intros o. subst o. split.
  - intros Hid. by rewrite run_shield_unfold, (run_shield_try_missing_id _ _ _ Hid).
  - intros [gid Hid] Hversion.
    by rewrite run_shield_unfold, (run_shield_try_missing_version _ _ _ _ Hid Hversion).
Qed.

Lemma run_shield_validation_order_witness :
  trace (run_shield "bedrock" sample_messages (Some ∅) (adapter_with failing_client)) =
    [EvLog DEBUG (LogRunShield (Some ∅) sample_messages);
     EvLog LOG_ERROR
       (LogApplyGuardrailsError
          (Exc RuntimeError
             "Error running request for BedrockGaurdrails:Missing GuardrailID in request"
             None))] ∧
  trace (run_shield "bedrock" sample_messages (Some {["guardrailIdentifier" := PStr "gr-1"]})
           (adapter_with failing_client)) =
    [EvLog DEBUG (LogRunShield (Some {["guardrailIdentifier" := PStr "gr-1"]}) sample_messages);
     EvLog LOG_ERROR
       (LogApplyGuardrailsError
          (Exc RuntimeError
             "Error running request for BedrockGaurdrails:Missing guardrailVersion in request"
             None))].
Proof.
  split.
  - apply (proj1 (run_shield_validation_order (adapter_with failing_client) "bedrock"
                    sample_messages ∅)).
    reflexivity.
  - apply (proj2 (run_shield_validation_order (adapter_with failing_client) "bedrock"
                    sample_messages {["guardrailIdentifier" := PStr "gr-1"]})).
    + exists (PStr "gr-1"). vm_compute. reflexivity.
    + vm_compute. reflexivity.
Defined.

(** ** [initialize] and the life cycle *)

Lemma initialize_trace boto3_Session_client str_config self :
  trace (initialize boto3_Session_client str_config self) =
  if truthy (aws_profile (config self)) then
    [EvPrint ("initializing with profile --- > " +:+ str_config (config self) +:+ "::");
     EvSession (aws_profile (config self))]
  else [].
Proof.
  init_unfold. destruct (truthy (aws_profile (config self))); cbn; [|done].
  destruct (boto3_Session_client _) as [client|e]; cbn; [done|].
  destruct (is_Exception (exc_class e)); done.
Qed.

Lemma initialize_success boto3_Session_client str_config self client :
  truthy (aws_profile (config self)) = true →
  boto3_Session_client (aws_profile (config self)) = Ok client →
  initialize boto3_Session_client str_config self =
  MkOutcome (Ok ())
    {| config := config self;
       boto_client_profile := aws_profile (config self);
       boto_client := Some client |}
    [EvPrint ("initializing with profile --- > " +:+ str_config (config self) +:+ "::");
     EvSession (aws_profile (config self))].
Proof.
  intros Hprofile Hsession. init_unfold. rewrite Hprofile. cbn. rewrite Hsession. done.
Qed.

Lemma truthy_nonempty profile :
  truthy profile = true ↔ ∃ name, profile = Some name ∧ name ≠ EmptyString.
Proof.
  destruct profile as [name|]; cbn.
  - rewrite negb_true_iff, String.eqb_neq. split; [eauto | by intros (? & [= <-] & ?)].
  - split; [done | by intros (? & ? & ?)].
Qed.

(** X13.  [initialize] asks for a session exactly when the configured
    profile is a non-empty string, and then for that profile: with no
    profile, or with the empty string as profile, no session is
    created. *)
Theorem initialize_session_iff_profile boto3_Session_client str_config self profile :
  EvSession profile ∈ trace (initialize boto3_Session_client str_config self) ↔
  profile = aws_profile (config self) ∧ ∃ name, profile = Some name ∧ name ≠ EmptyString.
Proof.
  rewrite initialize_trace.
  destruct (truthy (aws_profile (config self))) eqn:Hprofile.
  - apply truthy_nonempty in Hprofile.
    rewrite elem_of_cons, list_elem_of_singleton. split.
    + intros [[=] | [= ->]]. done.
    + intros [-> _]. by right.
  - split; [by intros ?%elem_of_nil|].
    intros [-> Hname]. apply truthy_nonempty in Hname. congruence.
Qed.

(** X14.  [initialize] never touches [config].  With a profile it has
    recorded the profile in [boto_client_profile] by the time the session
    is asked for, so also when that fails; and the client the adapter
    holds afterwards is the one it had or the one the session gave. *)
Theorem initialize_attributes boto3_Session_client str_config self :
  let o := initialize boto3_Session_client str_config self in
  config (self_after o) = config self ∧
  (if truthy (aws_profile (config self))
   then boto_client_profile (self_after o) = aws_profile (config self)
   else boto_client_profile (self_after o) = boto_client_profile self) ∧
  (∀ client,
     boto_client (self_after o) = Some client →
     boto_client self = Some client ∨
     boto3_Session_client (aws_profile (config self)) = Ok client).
Proof.
  init_unfold. destruct (truthy (aws_profile (config self))); cbn; [|auto].
  destruct (boto3_Session_client _) as [client|e]; cbn.
  - repeat split; [done..|]. intros ? [= <-]. auto.
  - destruct (is_Exception (exc_class e)); auto.
Qed.

(** X15.  The life cycle composes: [run_shield] called after a successful
    [initialize] sends its one request to the client the session gave,
    and the adapter still holds that client afterwards. *)
Theorem lifecycle_initialize_run_shield boto3_Session_client str_config self
    shield_type messages (d : gmap string PyVal) client gid gversion :
  truthy (aws_profile (config self)) = true →
  boto3_Session_client (aws_profile (config self)) = Ok client →
  d !! "guardrailIdentifier" = Some gid →
  d !! "guardrailVersion" = Some gversion →
  let o := (initialize boto3_Session_client str_config
              ≫= λ _, run_shield shield_type messages (Some d)) self in
  boto_client (self_after o) = Some client ∧
  remote_calls (trace o) =
    [{| guardrailIdentifier := gid;
        guardrailVersion := gversion;
        source := "OUTPUT";
        content_blocks := map content_block messages |}] ∧
  (∀ e, client {| guardrailIdentifier := gid;
                  guardrailVersion := gversion;
                  source := "OUTPUT";
                  content_blocks := map content_block messages |} = Raise e →
        is_Exception (exc_class e) = true → result o = Ok None).
Proof.
  intros Hprofile Hsession Hid Hversion o. subst o.
  unfold mbind, Py_bind.
  rewrite (initialize_success _ _ _ _ Hprofile Hsession). cbv beta iota.
  rewrite run_shield_unfold.
  rewrite (run_shield_try_call
             {| config := config self;
                boto_client_profile := aws_profile (config self);
                boto_client := Some client |}
             messages d client gid gversion eq_refl Hid Hversion).
  cbn zeta. unfold request_for.
  destruct (client _) as [response|e].
  - destruct (interpretation response) as [returned|e].
    + cbn. split; [done|]. split; [done|]. intros ? [=].
    + destruct (is_Exception (exc_class e)); cbn; (split; [done|]); (split; [done|]);
        intros ? [=].
  - destruct (is_Exception (exc_class e)) eqn:Herror; cbn.
    + done.
    + split; [done|]. split; [done|]. intros ? [= <-] ?. congruence.
Qed.

Lemma lifecycle_initialize_run_shield_witness :
  let o := (initialize (λ _, Ok failing_client) (λ _, "cfg")
              ≫= λ _, run_shield "bedrock" sample_messages (Some sample_params))
             (new_adapter sample_config) in
  boto_client (self_after o) = Some failing_client ∧
  remote_calls (trace o) =
    [{| guardrailIdentifier := PStr "gr-1";
        guardrailVersion := PStr "DRAFT";
        source := "OUTPUT";
        content_blocks := map content_block sample_messages |}] ∧
  (∀ e, failing_client {| guardrailIdentifier := PStr "gr-1";
                          guardrailVersion := PStr "DRAFT";
                          source := "OUTPUT";
                          content_blocks := map content_block sample_messages |} = Raise e →
        is_Exception (exc_class e) = true → result o = Ok None).
Proof.
  apply (lifecycle_initialize_run_shield (λ _, Ok failing_client) (λ _, "cfg")
           (new_adapter sample_config) "bedrock" sample_messages sample_params
           failing_client (PStr "gr-1") (PStr "DRAFT")).
  - reflexivity.
  - reflexivity.
  - vm_compute. reflexivity.
  - vm_compute. reflexivity.
Defined.

(** ** Values the violation cannot hold *)

(** A text that is no string, or an assessment given as pairs with a key
    that is no string, is refused by [SafetyViolation]; the error is
    logged and dropped like any other. *)
Example run_shield_text_not_a_string :
  let response :=
    PDict [(PStr "action", PStr "GUARDRAIL_INTERVENED");
           (PStr "outputs", PList [PDict [(PStr "text", PInt 5)]]);
           (PStr "assessments", PList [])] in
  result (run_shield "bedrock" sample_messages (Some sample_params)
            (adapter_with (λ _, Ok response))) = Ok None.
Proof. vm_compute. reflexivity. Qed.

Example run_shield_key_not_a_string :
  let response :=
    PDict [(PStr "action", PStr "GUARDRAIL_INTERVENED");
           (PStr "outputs", PList [PDict [(PStr "text", PStr "b")]]);
           (PStr "assessments", PList [PList [PList [PInt 1; PStr "a"]]])] in
  result (run_shield "bedrock" sample_messages (Some sample_params)
            (adapter_with (λ _, Ok response))) = Ok None.
Proof. vm_compute. reflexivity. Qed.
